(** * Booking service of the event platform: model and verified properties

    The development embeds [booking-service] (getBooking, postBooking,
    putBooking, validateEnrollment, validTicket, verifyRoom) and
    [booking-repository] (getBooking, postBooking, findRoom, findBooking,
    countBookingRoom, updateBooking).  The database behind the [prisma]
    client is a record of tables; every table is the list of its rows in
    storage order.  An [async] function is a computation that receives the
    database, may throw, and hands the database on. *)

From stdpp Require Import base decidable option list numbers strings.

Local Open Scope Z_scope.

(** ** Rows of the tables *)

Inductive TicketStatus := RESERVED | PAID.

Global Instance TicketStatus_eq_dec : EqDecision TicketStatus.
Proof. solve_decision. Defined.

Module Room.
Record t := mk {
  id : Z;
  name : string;
  capacity : Z;
  hotelId : Z;
  createdAt : Z;
  updatedAt : Z
}.
End Room.

Module Booking.
Record t := mk {
  id : Z;
  userId : Z;
  roomId : Z;
  createdAt : Z;
  updatedAt : Z
}.
End Booking.

Module Enrollment.
Record t := mk {
  id : Z;
  userId : Z
}.
End Enrollment.

Module TicketType.
Record t := mk {
  id : Z;
  isRemote : bool;
  includesHotel : bool
}.
End TicketType.

Module Ticket.
Record t := mk {
  id : Z;
  ticketTypeId : Z;
  enrollmentId : Z;
  status : TicketStatus
}.
End Ticket.

(** A ticket row together with the ticket type it references, the shape
    [ticket.TicketType.isRemote] is read from. *)
Module TicketWithType.
Record t := mk {
  ticket : Ticket.t;
  TicketType : TicketType.t
}.
Definition status (t : t) : TicketStatus := Ticket.status (ticket t).
End TicketWithType.

(** ** The database *)

(** [booking_id_seq] is the last value handed out by the sequence behind the
    autoincremented [Booking.id]. *)
Record Db := mkDb {
  booking : list Booking.t;
  room : list Room.t;
  enrollment : list Enrollment.t;
  ticket : list Ticket.t;
  ticketType : list TicketType.t;
  booking_id_seq : Z
}.

Definition with_booking (rows : list Booking.t) (seq : Z) (db : Db) : Db :=
  {| booking := rows;
     room := room db;
     enrollment := enrollment db;
     ticket := ticket db;
     ticketType := ticketType db;
     booking_id_seq := seq |}.

(** ** Errors and the computation monad *)

(** [notFoundError] and [cannotBookingError] are the two application errors
    the service throws.  [RecordNotFound] is what the client itself raises
    when [update] addresses a row that is not there. *)
Inductive Error := notFoundError | cannotBookingError | RecordNotFound.

Global Instance Error_eq_dec : EqDecision Error.
Proof. solve_decision. Defined.

Inductive Result (A : Type) :=
  | Ok (a : A)
  | Throw (e : Error).
Arguments Ok {A} a.
Arguments Throw {A} e.

Definition M (A : Type) : Type := Db → Result A * Db.

Global Instance M_ret : MRet M := λ A a db, (Ok a, db).

Global Instance M_bind : MBind M := λ A B k m db,
  match m db with
  | (Ok a, db') => k a db'
  | (Throw e, db') => (Throw e, db')
  end.

Definition throw {A} (e : Error) : M A := λ db, (Throw e, db).

(** Outcome and final database of a computation. *)
Definition outcome {A} (m : M A) (db : Db) : Result A := fst (m db).
Definition after {A} (m : M A) (db : Db) : Db := snd (m db).

(** ** The client operations used by the repositories *)

Module prisma.

Definition first_where {A} (P : A → Prop) `{∀ x, Decision (P x)}
    (rows : list A) : option A :=
  snd <$> list_find P rows.

Fixpoint count_where {A} (P : A → Prop) `{∀ x, Decision (P x)}
    (rows : list A) : Z :=
  match rows with
  | [] => 0
  | x :: rows' => (if decide (P x) then 1 else 0) + count_where P rows'
  end.

Definition findFirst {A} (table : Db → list A) (P : A → Prop)
    `{∀ x, Decision (P x)} : M (option A) :=
  λ db, (Ok (first_where P (table db)), db).

Definition count {A} (table : Db → list A) (P : A → Prop)
    `{∀ x, Decision (P x)} : M Z :=
  λ db, (Ok (count_where P (table db)), db).

End prisma.

(** ** The columns the database fills in *)

(** Modelled from the spec: the schema of the Booking table is not among
    the source files.  A booking has the attributes id, userId, roomId,
    createdAt and updatedAt; a created row takes its id from the sequence
    and the time of the write as both timestamps. *)
Definition created (id now userId roomId : Z) : Booking.t :=
  Booking.mk id userId roomId now now.

(** Modelled from the spec: the schema of the Booking table is not among
    the source files.  An update of the room keeps id, userId and createdAt
    and refreshes updatedAt with the time of the write. *)
Definition moved (now roomId : Z) (b : Booking.t) : Booking.t :=
  Booking.mk (Booking.id b) (Booking.userId b) roomId (Booking.createdAt b) now.

(** ** booking-repository *)

Module bookingRepository.

(** [include: { Room: true }] attaches the room the booking references. *)
Definition getBooking (userId : Z) : M (option (Booking.t * option Room.t)) :=
  λ db,
    (Ok (b ← prisma.first_where (λ b, Booking.userId b = userId) (booking db);
         Some (b, prisma.first_where (λ r, Room.id r = Booking.roomId b) (room db))),
     db).

(** [create] appends one row with the given [userId] and [roomId] and
    returns it. *)
Definition postBooking (now : Z) (userId roomId : Z) : M Booking.t :=
  λ db,
    let b := created (booking_id_seq db + 1) now userId roomId in
    (Ok b, with_booking (booking db ++ [b]) (booking_id_seq db + 1) db).

Definition findRoom (roomId : Z) : M (option Room.t) :=
  prisma.findFirst room (λ r, Room.id r = roomId).

Definition findBooking (bookingId : Z) : M (option Booking.t) :=
  prisma.findFirst booking (λ b, Booking.id b = bookingId).

Definition countBookingRoom (roomId : Z) : M Z :=
  prisma.count booking (λ b, Booking.roomId b = roomId).

(** [update] rewrites in place the row addressed by the id, with [roomId]
    as the new data, and returns it; it throws when no row has the id. *)
Definition updateBooking (now : Z) (bookingId roomId : Z) : M Booking.t :=
  λ db,
    match list_find (λ b, Booking.id b = bookingId) (booking db) with
    | None => (Throw RecordNotFound, db)
    | Some (i, b) =>
        let b' := moved now roomId b in
        (Ok b', with_booking (<[i := b']> (booking db)) (booking_id_seq db) db)
    end.

End bookingRepository.

(** ** enrollment-repository and ticket-repository *)

Module enrollmentRepository.

(** Modelled from the spec: [findWithAddressByUserId] of the enrollment
    repository is not among the source files.  It is the
    fetch-first-matching-filter of the persistence collaborator on the
    enrollment of the user. *)
Definition findWithAddressByUserId (userId : Z) : M (option Enrollment.t) :=
  prisma.findFirst enrollment (λ e, Enrollment.userId e = userId).

End enrollmentRepository.

Module ticketRepository.

(** Modelled from the spec: the lookup behind [findTicketByEnrollmentId],
    which is not among the source files: the first ticket of the enrollment
    with the ticket type it references. *)
Definition ticket_with_type (db : Db) (enrollmentId : Z) : option TicketWithType.t :=
  t ← prisma.first_where (λ t, Ticket.enrollmentId t = enrollmentId) (ticket db);
  ty ← prisma.first_where (λ ty, TicketType.id ty = Ticket.ticketTypeId t) (ticketType db);
  Some (TicketWithType.mk t ty).

(** Modelled from the spec: [findTicketByEnrollmentId] of the ticket
    repository is not among the source files.  It fetches the first
    ticket of the enrollment and joins the ticket type the ticket
    references; the foreign key of the table guarantees that this type
    exists, and a ticket without one is not returned. *)
Definition findTicketByEnrollmentId (enrollmentId : Z) : M (option TicketWithType.t) :=
  λ db, (Ok (ticket_with_type db enrollmentId), db).

End ticketRepository.

(** ** booking-service *)

Module bookingService.

Definition getBooking (userId : Z) : M (Booking.t * option Room.t) :=
  booking ← bookingRepository.getBooking userId;
  match booking with
  | None => throw notFoundError
  | Some booking => mret booking
  end.

Definition validateEnrollment (userId : Z) : M Enrollment.t :=
  enrollment ← enrollmentRepository.findWithAddressByUserId userId;
  match enrollment with
  | None => throw cannotBookingError
  | Some enrollment => mret enrollment
  end.

Definition validTicket (userId : Z) : M TicketWithType.t :=
  enrollment ← validateEnrollment userId;
  ticket ← ticketRepository.findTicketByEnrollmentId (Enrollment.id enrollment);
  match ticket with
  | None => throw cannotBookingError
  | Some ticket =>
      if bool_decide (TicketWithType.status ticket = RESERVED)
         || TicketType.isRemote (TicketWithType.TicketType ticket)
         || negb (TicketType.includesHotel (TicketWithType.TicketType ticket))
      then throw cannotBookingError
      else mret ticket
  end.

Definition verifyRoom (roomId : Z) : M Z :=
  room ← bookingRepository.findRoom roomId;
  match room with
  | None => throw notFoundError
  | Some room =>
      bookingRoom ← bookingRepository.countBookingRoom roomId;
      if bookingRoom >=? Room.capacity room
      then throw cannotBookingError
      else mret bookingRoom
  end.

Section Writes.

(** The time at which the request is served. *)
Variable now : Z.

Definition postBooking (userId roomId : Z) : M Booking.t :=
  verifyRoom roomId;;
  validTicket userId;;
  userBooking ← bookingRepository.getBooking userId;
  match userBooking with
  | Some _ => throw cannotBookingError
  | None => bookingRepository.postBooking now userId roomId
  end.

Definition putBooking (userId bookingId roomId : Z) : M Booking.t :=
  booking ← bookingRepository.findBooking bookingId;
  match booking with
  | None => throw notFoundError
  | Some booking =>
      if bool_decide (userId ≠ Booking.userId booking)
         || bool_decide (roomId = Booking.roomId booking)
      then throw cannotBookingError
      else
        verifyRoom roomId;;
        bookingRepository.updateBooking now bookingId roomId
  end.

End Writes.

End bookingService.

(** ** Vocabulary of the properties *)

(** What the tables say about a room, a booking, a user. *)
Definition room_of (db : Db) (roomId : Z) : option Room.t :=
  prisma.first_where (λ r, Room.id r = roomId) (room db).

Definition booking_by_id (db : Db) (bookingId : Z) : option Booking.t :=
  prisma.first_where (λ b, Booking.id b = bookingId) (booking db).

Definition booking_of_user (db : Db) (userId : Z) : option Booking.t :=
  prisma.first_where (λ b, Booking.userId b = userId) (booking db).

Definition enrollment_of (db : Db) (userId : Z) : option Enrollment.t :=
  prisma.first_where (λ e, Enrollment.userId e = userId) (enrollment db).

(** Occupancy of a room: the number of booking rows that reference it. *)
Definition occupancy (db : Db) (roomId : Z) : Z :=
  Z.of_nat (length (filter (λ b, Booking.roomId b = roomId) (booking db))).

(** The test [validTicket] applies to the ticket it found. *)
Definition ticket_refused (t : TicketWithType.t) : bool :=
  bool_decide (TicketWithType.status t = RESERVED)
  || TicketType.isRemote (TicketWithType.TicketType t)
  || negb (TicketType.includesHotel (TicketWithType.TicketType t)).

(** The five conditions of ticket eligibility, with the ticket they are
    about. *)
Definition eligible_with (db : Db) (userId : Z) (t : TicketWithType.t) : Prop :=
  ∃ e, enrollment_of db userId = Some e
     ∧ ticketRepository.ticket_with_type db (Enrollment.id e) = Some t
     ∧ TicketWithType.status t ≠ RESERVED
     ∧ TicketType.isRemote (TicketWithType.TicketType t) = false
     ∧ TicketType.includesHotel (TicketWithType.TicketType t) = true.

Definition eligible (db : Db) (userId : Z) : Prop :=
  ∃ t, eligible_with db userId t.

(** The five ways of violating one condition while those before it hold. *)
Inductive Ineligible (db : Db) (userId : Z) : Prop :=
  | no_enrollment :
      enrollment_of db userId = None → Ineligible db userId
  | no_ticket e :
      enrollment_of db userId = Some e →
      ticketRepository.ticket_with_type db (Enrollment.id e) = None →
      Ineligible db userId
  | ticket_reserved e t :
      enrollment_of db userId = Some e →
      ticketRepository.ticket_with_type db (Enrollment.id e) = Some t →
      TicketWithType.status t = RESERVED →
      Ineligible db userId
  | ticket_remote e t :
      enrollment_of db userId = Some e →
      ticketRepository.ticket_with_type db (Enrollment.id e) = Some t →
      TicketType.isRemote (TicketWithType.TicketType t) = true →
      Ineligible db userId
  | ticket_without_hotel e t :
      enrollment_of db userId = Some e →
      ticketRepository.ticket_with_type db (Enrollment.id e) = Some t →
      TicketType.includesHotel (TicketWithType.TicketType t) = false →
      Ineligible db userId.

(** The invariant of the booking table: at most one booking per user. *)
Definition one_booking_per_user (db : Db) : Prop :=
  NoDup (Booking.userId <$> booking db).

(** Two databases that agree on everything but enrollments, tickets and
    ticket types. *)
Definition same_bookings_and_rooms (db1 db2 : Db) : Prop :=
  booking db1 = booking db2 ∧ room db1 = room db2
  ∧ booking_id_seq db1 = booking_id_seq db2.

(** Two databases with the same enrollments, tickets and ticket types. *)
Definition same_tickets (db1 db2 : Db) : Prop :=
  enrollment db1 = enrollment db2 ∧ ticket db1 = ticket db2
  ∧ ticketType db1 = ticketType db2.

(** No room holds more bookings than its capacity. *)
Definition no_overbooking (db : Db) : Prop :=
  ∀ roomId r, room_of db roomId = Some r → occupancy db roomId ≤ Room.capacity r.

(** What a booking row says apart from its update time. *)
Definition booking_core (b : Booking.t) : Z * Z * Z * Z :=
  (Booking.id b, Booking.userId b, Booking.roomId b, Booking.createdAt b).

(** Requests served one after the other. *)
Inductive Request :=
  | GetBooking (userId : Z)
  | PostBooking (now userId roomId : Z)
  | PutBooking (now userId bookingId roomId : Z).

Definition serve (rq : Request) (db : Db) : Db :=
  match rq with
  | GetBooking userId => after (bookingService.getBooking userId) db
  | PostBooking now userId roomId =>
      after (bookingService.postBooking now userId roomId) db
  | PutBooking now userId bookingId roomId =>
      after (bookingService.putBooking now userId bookingId roomId) db
  end.

Definition serve_all (rqs : list Request) (db : Db) : Db :=
  foldl (λ db rq, serve rq db) db rqs.

(** ** Databases used as concrete inputs *)

Definition hotel_rooms : list Room.t :=
  [ Room.mk 1 "101" 1 1 0 0; Room.mk 2 "102" 1 1 0 0;
    Room.mk 3 "201" 2 2 0 0 ].

(** User 10 holds a paid, on-site ticket with hotel and has no booking. *)
Definition db_fresh : Db :=
  {| booking := [];
     room := hotel_rooms;
     enrollment := [Enrollment.mk 100 10];
     ticket := [Ticket.mk 1000 7 100 PAID];
     ticketType := [TicketType.mk 7 false true];
     booking_id_seq := 0 |}.

(** User 10 has booked room 1, which is thereby full. *)
Definition db_booked : Db :=
  {| booking := [Booking.mk 1 10 1 5 5];
     room := hotel_rooms;
     enrollment := [Enrollment.mk 100 10];
     ticket := [Ticket.mk 1000 7 100 PAID];
     ticketType := [TicketType.mk 7 false true];
     booking_id_seq := 1 |}.

(** As [db_fresh], but the ticket of user 10 is still reserved. *)
Definition db_reserved : Db :=
  {| booking := [];
     room := hotel_rooms;
     enrollment := [Enrollment.mk 100 10];
     ticket := [Ticket.mk 1000 7 100 RESERVED];
     ticketType := [TicketType.mk 7 false true];
     booking_id_seq := 0 |}.

(** As [db_booked], without any enrollment or ticket. *)
Definition db_booked_no_ticket : Db :=
  {| booking := [Booking.mk 1 10 1 5 5];
     room := hotel_rooms;
     enrollment := [];
     ticket := [];
     ticketType := [];
     booking_id_seq := 1 |}.

(** ** How the computations run *)

Lemma count_where_filter {A} (P : A → Prop) `{∀ x, Decision (P x)} (rows : list A) :
  prisma.count_where P rows = Z.of_nat (length (filter P rows)).
Proof.
  induction rows as [|x rows IH]; [done|].
  cbn [prisma.count_where]. rewrite filter_cons, IH.
  destruct (decide (P x)); cbn [length]; lia.
Qed.

Lemma count_where_occupancy db roomId :
  prisma.count_where (λ b, Booking.roomId b = roomId) (booking db)
  = occupancy db roomId.
Proof. apply count_where_filter. Qed.

Lemma occupancy_nonneg db roomId : 0 ≤ occupancy db roomId.
Proof. unfold occupancy. lia. Qed.

Lemma bind_run {A B} (m : M A) (k : A → M B) db :
  (m ≫= k) db =
  match m db with
  | (Ok a, db') => k a db'
  | (Throw e, db') => (Throw e, db')
  end.
Proof. reflexivity. Qed.

Lemma verifyRoom_run roomId db :
  bookingService.verifyRoom roomId db =
  match room_of db roomId with
  | None => (Throw notFoundError, db)
  | Some r =>
      if occupancy db roomId >=? Room.capacity r
      then (Throw cannotBookingError, db)
      else (Ok (occupancy db roomId), db)
  end.
Proof.
  unfold bookingService.verifyRoom. rewrite bind_run.
  change (bookingRepository.findRoom roomId db) with (Ok (room_of db roomId), db).
  destruct (room_of db roomId) as [r|]; [|done].
  rewrite bind_run.
  change (bookingRepository.countBookingRoom roomId db)
    with (Ok (prisma.count_where (λ b, Booking.roomId b = roomId) (booking db)), db).
  rewrite count_where_occupancy.
  by destruct (occupancy db roomId >=? Room.capacity r).
Qed.

Lemma validTicket_run userId db :
  bookingService.validTicket userId db =
  match enrollment_of db userId with
  | None => (Throw cannotBookingError, db)
  | Some e =>
      match ticketRepository.ticket_with_type db (Enrollment.id e) with
      | None => (Throw cannotBookingError, db)
      | Some t =>
          if ticket_refused t then (Throw cannotBookingError, db) else (Ok t, db)
      end
  end.
Proof.
  unfold bookingService.validTicket, bookingService.validateEnrollment.
  rewrite !bind_run.
  change (enrollmentRepository.findWithAddressByUserId userId db)
    with (Ok (enrollment_of db userId), db).
  destruct (enrollment_of db userId) as [e|]; [|done].
  cbn [mret M_ret]. rewrite bind_run.
  change (ticketRepository.findTicketByEnrollmentId (Enrollment.id e) db)
    with (Ok (ticketRepository.ticket_with_type db (Enrollment.id e)), db).
  destruct (ticketRepository.ticket_with_type db (Enrollment.id e)) as [t|]; [|done].
  fold (ticket_refused t). by destruct (ticket_refused t).
Qed.

Lemma repository_getBooking_run userId db :
  bookingRepository.getBooking userId db =
  (Ok (b ← booking_of_user db userId; Some (b, room_of db (Booking.roomId b))), db).
Proof. reflexivity. Qed.

Lemma getBooking_run userId db :
  bookingService.getBooking userId db =
  match booking_of_user db userId with
  | None => (Throw notFoundError, db)
  | Some b => (Ok (b, room_of db (Booking.roomId b)), db)
  end.
Proof.
  unfold bookingService.getBooking. rewrite bind_run, repository_getBooking_run.
  by destruct (booking_of_user db userId).
Qed.

Lemma postBooking_run now userId roomId db :
  bookingService.postBooking now userId roomId db =
  match bookingService.verifyRoom roomId db with
  | (Throw e, _) => (Throw e, db)
  | (Ok _, _) =>
      match bookingService.validTicket userId db with
      | (Throw e, _) => (Throw e, db)
      | (Ok _, _) =>
          match booking_of_user db userId with
          | Some _ => (Throw cannotBookingError, db)
          | None => bookingRepository.postBooking now userId roomId db
          end
      end
  end.
Proof.
  unfold bookingService.postBooking. rewrite bind_run, verifyRoom_run.
  destruct (room_of db roomId) as [r|]; [|done].
  destruct (occupancy db roomId >=? Room.capacity r); [done|].
  rewrite bind_run, validTicket_run.
  destruct (enrollment_of db userId) as [e|]; [|done].
  destruct (ticketRepository.ticket_with_type db (Enrollment.id e)) as [t|]; [|done].
  destruct (ticket_refused t); [done|].
  rewrite bind_run, repository_getBooking_run.
  by destruct (booking_of_user db userId).
Qed.

Lemma putBooking_run now userId bookingId roomId db :
  bookingService.putBooking now userId bookingId roomId db =
  match booking_by_id db bookingId with
  | None => (Throw notFoundError, db)
  | Some b =>
      if bool_decide (userId ≠ Booking.userId b)
         || bool_decide (roomId = Booking.roomId b)
      then (Throw cannotBookingError, db)
      else
        match bookingService.verifyRoom roomId db with
        | (Throw e, _) => (Throw e, db)
        | (Ok _, _) => bookingRepository.updateBooking now bookingId roomId db
        end
  end.
Proof.
  unfold bookingService.putBooking. rewrite bind_run.
  change (bookingRepository.findBooking bookingId db)
    with (Ok (booking_by_id db bookingId), db).
  destruct (booking_by_id db bookingId) as [b|]; [|done].
  destruct (_ || _); [done|].
  rewrite bind_run, verifyRoom_run.
  destruct (room_of db roomId) as [r|]; [|done].
  by destruct (occupancy db roomId >=? Room.capacity r).
Qed.

(** The row [update] addresses is the row [findBooking] returned. *)
Lemma updateBooking_run now bookingId roomId db :
  bookingRepository.updateBooking now bookingId roomId db =
  match list_find (λ b, Booking.id b = bookingId) (booking db) with
  | None => (Throw RecordNotFound, db)
  | Some (i, b) =>
      (Ok (moved now roomId b),
       with_booking (<[i := moved now roomId b]> (booking db)) (booking_id_seq db) db)
  end.
Proof.
  unfold bookingRepository.updateBooking.
  by destruct (list_find _ _) as [[i b]|].
Qed.

Lemma booking_by_id_find db bookingId b :
  booking_by_id db bookingId = Some b ↔
  ∃ i, list_find (λ b, Booking.id b = bookingId) (booking db) = Some (i, b).
Proof.
  unfold booking_by_id, prisma.first_where.
  destruct (list_find _ _) as [[i b']|]; cbn; split.
  - intros [= ->]. by exists i.
  - by intros [j [= _ ->]].
  - done.
  - by intros [j ?].
Qed.

Lemma first_where_app_None {A} (P : A → Prop) `{∀ x, Decision (P x)} (l k : list A) :
  prisma.first_where P l = None →
  prisma.first_where P (l ++ k) = prisma.first_where P k.
Proof.
  unfold prisma.first_where. intros Hl.
  destruct (list_find P l) as [[i x]|] eqn:E; [done|].
  rewrite (list_find_app_r _ _ _ E).
  by destruct (list_find P k) as [[j y]|].
Qed.

Lemma ticket_refused_false t :
  ticket_refused t = false ↔
  TicketWithType.status t ≠ RESERVED
  ∧ TicketType.isRemote (TicketWithType.TicketType t) = false
  ∧ TicketType.includesHotel (TicketWithType.TicketType t) = true.
Proof.
  unfold ticket_refused.
  rewrite !orb_false_iff, bool_decide_eq_false, negb_false_iff. tauto.
Qed.

Lemma eligible_with_run db userId t :
  eligible_with db userId t ↔ bookingService.validTicket userId db = (Ok t, db).
Proof.
  rewrite validTicket_run. unfold eligible_with. split.
  - intros (e & -> & -> & Hok). apply ticket_refused_false in Hok. by rewrite Hok.
  - destruct (enrollment_of db userId) as [e|]; [|done].
    destruct (ticketRepository.ticket_with_type db (Enrollment.id e)) as [t'|] eqn:Et; [|done].
    destruct (ticket_refused t') eqn:Er; [done|].
    intros [= ->]. exists e. by apply ticket_refused_false in Er.
Qed.

Lemma ineligible_run db userId :
  Ineligible db userId → bookingService.validTicket userId db = (Throw cannotBookingError, db).
Proof.
  rewrite validTicket_run.
  intros [He | e He Ht | e t He Ht Hs | e t He Ht Hr | e t He Ht Hh];
    rewrite He; [done | rewrite Ht; done | rewrite Ht ..].
  - unfold ticket_refused. by rewrite bool_decide_eq_true_2.
  - unfold ticket_refused. rewrite Hr. by rewrite orb_true_r.
  - unfold ticket_refused. rewrite Hh. by rewrite orb_true_r.
Qed.

Lemma eligible_or_ineligible db userId :
  eligible db userId ∨ Ineligible db userId.
Proof.
  destruct (enrollment_of db userId) as [e|] eqn:He; [|right; by constructor 1].
  destruct (ticketRepository.ticket_with_type db (Enrollment.id e)) as [t|] eqn:Ht;
    [|right; by econstructor 2].
  destruct (decide (TicketWithType.status t = RESERVED)) as [Hs|Hs];
    [right; by econstructor 3|].
  destruct (TicketType.isRemote (TicketWithType.TicketType t)) eqn:Hr;
    [right; by econstructor 4|].
  destruct (TicketType.includesHotel (TicketWithType.TicketType t)) eqn:Hh;
    [|right; by econstructor 5].
  left. exists t, e. done.
Qed.

Lemma eligible_not_ineligible db userId :
  eligible db userId → ¬ Ineligible db userId.
Proof.
  intros [t Ht%eligible_with_run] Hi%ineligible_run. congruence.
Qed.

(** ** Creating a booking *)

(** C1.  A user whose enrollment carries a PAID ticket of a type that is not
    remote and includes the hotel, and who has no booking, books any
    existing room whose occupancy is below its capacity: [postBooking]
    returns a booking with the given user and room, the booking table gains
    exactly this one row (the user then finds it as their booking), and
    rooms, enrollments, tickets and ticket types are unchanged. *)
Theorem postBooking_creates now db userId roomId e t r :
  enrollment_of db userId = Some e →
  ticketRepository.ticket_with_type db (Enrollment.id e) = Some t →
  TicketWithType.status t = PAID →
  TicketType.isRemote (TicketWithType.TicketType t) = false →
  TicketType.includesHotel (TicketWithType.TicketType t) = true →
  booking_of_user db userId = None →
  room_of db roomId = Some r →
  occupancy db roomId < Room.capacity r →
  ∃ b db',
    bookingService.postBooking now userId roomId db = (Ok b, db')
    ∧ Booking.userId b = userId
    ∧ Booking.roomId b = roomId
    ∧ booking db' = booking db ++ [b]
    ∧ booking_of_user db' userId = Some b
    ∧ room db' = room db
    ∧ enrollment db' = enrollment db
    ∧ ticket db' = ticket db
    ∧ ticketType db' = ticketType db.
Proof.
  intros He Ht Hs Hremote Hhotel Hnone Hr Hocc.
  rewrite postBooking_run, verifyRoom_run, Hr.
  destruct (Z.geb_spec (occupancy db roomId) (Room.capacity r)) as [|_]; [lia|].
  assert (eligible_with db userId t) as Hel.
  { exists e. repeat split; try done. rewrite Hs. discriminate. }
  apply eligible_with_run in Hel. rewrite Hel, Hnone.
  eexists _, _. split; [reflexivity|].
  split_and!; try reflexivity.
  unfold booking_of_user in *. cbn [booking with_booking].
  rewrite first_where_app_None by done.
  unfold prisma.first_where. cbn. by rewrite decide_True.
Qed.

Lemma postBooking_creates_witness :
  ∃ b db',
    bookingService.postBooking 9 10 2 db_fresh = (Ok b, db')
    ∧ Booking.userId b = 10
    ∧ Booking.roomId b = 2
    ∧ booking db' = booking db_fresh ++ [b]
    ∧ booking_of_user db' 10 = Some b
    ∧ room db' = room db_fresh
    ∧ enrollment db' = enrollment db_fresh
    ∧ ticket db' = ticket db_fresh
    ∧ ticketType db' = ticketType db_fresh.
Proof.
  apply (postBooking_creates 9 db_fresh 10 2 (Enrollment.mk 100 10)
           (TicketWithType.mk (Ticket.mk 1000 7 100 PAID) (TicketType.mk 7 false true))
           (Room.mk 2 "102" 1 1 0 0));
    reflexivity.
Defined.

(** C2.  [validTicket] accepts exactly when the five conditions hold
    together (an enrollment, a ticket of that enrollment, a status other
    than RESERVED, a type that is not remote, a type that includes the
    hotel); these conditions hold exactly when none of the five violations
    occurs; and when the room is there with spare capacity and the user has
    no booking, any one violation makes [postBooking] throw
    [cannotBookingError] and leave the database as it was. *)
Theorem validTicket_five_conditions now db userId roomId :
  (∀ t, bookingService.validTicket userId db = (Ok t, db) ↔ eligible_with db userId t)
  ∧ (eligible db userId ↔ ¬ Ineligible db userId)
  ∧ (∀ r, room_of db roomId = Some r →
          occupancy db roomId < Room.capacity r →
          booking_of_user db userId = None →
          Ineligible db userId →
          bookingService.postBooking now userId roomId db
          = (Throw cannotBookingError, db)).
Proof.
  split; [|split].
  - intros t. symmetry. apply eligible_with_run.
  - split; [apply eligible_not_ineligible|].
    intros Hn. by destruct (eligible_or_ineligible db userId).
  - intros r Hr Hocc _ Hi.
    rewrite postBooking_run, verifyRoom_run, Hr.
    destruct (Z.geb_spec (occupancy db roomId) (Room.capacity r)) as [|_]; [lia|].
    by rewrite (ineligible_run _ _ Hi).
Qed.

Lemma validTicket_five_conditions_witness :
  bookingService.postBooking 9 10 2 db_reserved = (Throw cannotBookingError, db_reserved).
Proof.
  refine (proj2 (proj2 (validTicket_five_conditions 9 db_reserved 10 2))
            (Room.mk 2 "102" 1 1 0 0) _ _ _ _).
  - reflexivity.
  - reflexivity.
  - reflexivity.
  - apply (ticket_reserved db_reserved 10 (Enrollment.mk 100 10)
             (TicketWithType.mk (Ticket.mk 1000 7 100 RESERVED) (TicketType.mk 7 false true)));
      reflexivity.
Defined.

(** ** Every way a write can end *)

(** [postBooking] either throws one of the two application errors and
    leaves the database alone, or the user had no booking and the call is
    the single [create] of the repository. *)
Lemma postBooking_cases now userId roomId db :
  (∃ e, bookingService.postBooking now userId roomId db = (Throw e, db)
        ∧ (e = notFoundError ∨ e = cannotBookingError))
  ∨ (booking_of_user db userId = None
     ∧ (∃ r, room_of db roomId = Some r ∧ occupancy db roomId < Room.capacity r)
     ∧ eligible db userId
     ∧ bookingService.postBooking now userId roomId db
       = bookingRepository.postBooking now userId roomId db).
Proof.
  rewrite postBooking_run, verifyRoom_run.
  destruct (room_of db roomId) as [r|]; [|left; eauto].
  destruct (Z.geb_spec (occupancy db roomId) (Room.capacity r)); [left; eauto|].
  destruct (eligible_or_ineligible db userId) as [[t Ht]|Hi].
  - pose proof Ht as Hrun%eligible_with_run. rewrite Hrun.
    destruct (booking_of_user db userId); [left; eauto|].
    right. split_and!; eauto. by exists t.
  - rewrite (ineligible_run _ _ Hi). left; eauto.
Qed.

(** [putBooking] either throws one of the two application errors and
    leaves the database alone, or it rewrites the row that carries the id,
    which belongs to the caller and sits in another room, and the target
    room is there with spare capacity. *)
Lemma putBooking_cases now userId bookingId roomId db :
  (∃ e, bookingService.putBooking now userId bookingId roomId db = (Throw e, db)
        ∧ (e = notFoundError ∨ e = cannotBookingError))
  ∨ (∃ i b,
       list_find (λ b, Booking.id b = bookingId) (booking db) = Some (i, b)
       ∧ Booking.userId b = userId
       ∧ Booking.roomId b ≠ roomId
       ∧ (∃ r, room_of db roomId = Some r ∧ occupancy db roomId < Room.capacity r)
       ∧ bookingService.putBooking now userId bookingId roomId db
         = (Ok (moved now roomId b),
            with_booking (<[i := moved now roomId b]> (booking db))
              (booking_id_seq db) db)).
Proof.
  rewrite putBooking_run.
  destruct (booking_by_id db bookingId) as [b|] eqn:Eb; [|left; eauto].
  apply booking_by_id_find in Eb as [i Ei].
  destruct (bool_decide_reflect (userId ≠ Booking.userId b)) as [|Hu%dec_stable];
    cbn [orb]; [left; eauto|].
  destruct (bool_decide_reflect (roomId = Booking.roomId b)) as [|Hr]; [left; eauto|].
  rewrite verifyRoom_run.
  destruct (room_of db roomId) as [r|] eqn:Er; [|left; eauto].
  destruct (Z.geb_spec (occupancy db roomId) (Room.capacity r)); [left; eauto|].
  right. exists i, b. rewrite updateBooking_run, Ei.
  split_and!; eauto.
Qed.

(** ** The room check *)

(** C3, as stated, fails for [putBooking]: an update that names a booking
    id that does not exist ends in [notFoundError] although the target room
    exists and is full. *)
Lemma full_room_not_always_conflict :
  ¬ (∀ now db userId bookingId roomId r,
       room_of db roomId = Some r →
       Room.capacity r ≤ occupancy db roomId →
       outcome (bookingService.postBooking now userId roomId) db
         = Throw cannotBookingError
       ∧ outcome (bookingService.putBooking now userId bookingId roomId) db
         = Throw cannotBookingError).
Proof.
  intros H.
  destruct (H 9 db_booked 10 99 1 (Room.mk 1 "101" 1 1 0 0)) as [_ Hput];
    [reflexivity | vm_compute; discriminate | ].
  vm_compute in Hput. discriminate.
Qed.

(** C3, amended.  For an existing room, the number [verifyRoom] compares
    with the capacity is the number of booking rows that reference the
    room.  With occupancy at or above capacity [postBooking] throws
    [cannotBookingError]; [putBooking] throws [cannotBookingError] when the
    booking exists and [notFoundError] when it does not.  With occupancy
    below capacity the check passes with that number, [postBooking] goes on
    to the ticket check and [putBooking], for the owner and a room other
    than the current one, goes on to the update. *)
Theorem room_check_by_occupancy now db userId bookingId roomId r :
  room_of db roomId = Some r →
  bookingService.verifyRoom roomId db
  = (if occupancy db roomId >=? Room.capacity r
     then Throw cannotBookingError else Ok (occupancy db roomId), db)
  ∧ (Room.capacity r ≤ occupancy db roomId →
       bookingService.postBooking now userId roomId db
       = (Throw cannotBookingError, db)
       ∧ (is_Some (booking_by_id db bookingId) →
          bookingService.putBooking now userId bookingId roomId db
          = (Throw cannotBookingError, db))
       ∧ (booking_by_id db bookingId = None →
          bookingService.putBooking now userId bookingId roomId db
          = (Throw notFoundError, db)))
  ∧ (occupancy db roomId < Room.capacity r →
       bookingService.verifyRoom roomId db = (Ok (occupancy db roomId), db)
       ∧ bookingService.postBooking now userId roomId db
         = (bookingService.validTicket userId;;
            userBooking ← bookingRepository.getBooking userId;
            match userBooking with
            | Some _ => throw cannotBookingError
            | None => bookingRepository.postBooking now userId roomId
            end) db
       ∧ (∀ b, booking_by_id db bookingId = Some b →
               userId = Booking.userId b →
               roomId ≠ Booking.roomId b →
               bookingService.putBooking now userId bookingId roomId db
               = bookingRepository.updateBooking now bookingId roomId db)).
Proof.
  intros Hr. split; [|split].
  - rewrite verifyRoom_run, Hr. by destruct (_ >=? _).
  - intros Hfull.
    assert (bookingService.verifyRoom roomId db = (Throw cannotBookingError, db)) as Hv.
    { rewrite verifyRoom_run, Hr.
      by destruct (Z.geb_spec (occupancy db roomId) (Room.capacity r)); [|lia]. }
    split_and!.
    + by rewrite postBooking_run, Hv.
    + intros [b Hb]. rewrite putBooking_run, Hb, Hv. by destruct (_ || _).
    + intros Hb. by rewrite putBooking_run, Hb.
  - intros Hfree.
    assert (bookingService.verifyRoom roomId db = (Ok (occupancy db roomId), db)) as Hv.
    { rewrite verifyRoom_run, Hr.
      by destruct (Z.geb_spec (occupancy db roomId) (Room.capacity r)); [lia|]. }
    split_and!; [done| |].
    + unfold bookingService.postBooking. by rewrite bind_run, Hv.
    + intros b Hb Hu Hne. rewrite putBooking_run, Hb, Hv.
      rewrite bool_decide_eq_false_2 by (intros ?; done).
      by rewrite bool_decide_eq_false_2 by done.
Qed.

Lemma room_check_by_occupancy_witness :
  bookingService.putBooking 9 10 1 1 db_booked = (Throw cannotBookingError, db_booked)
  ∧ bookingService.putBooking 9 10 1 3 db_booked
    = bookingRepository.updateBooking 9 1 3 db_booked.
Proof.
  split.
  - refine (proj1 (proj2 (proj1 (proj2
      (room_check_by_occupancy 9 db_booked 10 1 1 (Room.mk 1 "101" 1 1 0 0) _)) _)) _).
    + reflexivity.
    + vm_compute. discriminate.
    + by eexists.
  - refine (proj2 (proj2 (proj2 (proj2
      (room_check_by_occupancy 9 db_booked 10 1 3 (Room.mk 3 "201" 2 2 0 0) _)) _))
      (Booking.mk 1 10 1 5 5) _ _ _).
    + reflexivity.
    + reflexivity.
    + reflexivity.
    + reflexivity.
    + discriminate.
Defined.

(** ** The guards of an update *)

(** C4.  [putBooking] throws [notFoundError] when no booking carries the
    id.  Otherwise a caller who is not the owner and a target room equal to
    the current one are refused alike, with [cannotBookingError], whatever
    the state of the target room; the room is looked at only after both
    checks have passed, so that a missing room then gives [notFoundError]. *)
Theorem putBooking_guards now db userId bookingId roomId :
  (booking_by_id db bookingId = None →
   bookingService.putBooking now userId bookingId roomId db
   = (Throw notFoundError, db))
  ∧ (∀ b, booking_by_id db bookingId = Some b →
          userId ≠ Booking.userId b ∨ roomId = Booking.roomId b →
          bookingService.putBooking now userId bookingId roomId db
          = (Throw cannotBookingError, db))
  ∧ (∀ b, booking_by_id db bookingId = Some b →
          userId = Booking.userId b →
          roomId ≠ Booking.roomId b →
          room_of db roomId = None →
          bookingService.putBooking now userId bookingId roomId db
          = (Throw notFoundError, db)).
Proof.
  split_and!.
  - intros Hb. by rewrite putBooking_run, Hb.
  - intros b Hb Hor. rewrite putBooking_run, Hb.
    destruct Hor as [Hu| ->].
    + by rewrite (bool_decide_eq_true_2 _ Hu).
    + rewrite (bool_decide_eq_true_2 (Booking.roomId b = Booking.roomId b)) by done.
      by rewrite orb_true_r.
  - intros b Hb Hu Hne Hr. rewrite putBooking_run, Hb, verifyRoom_run, Hr.
    rewrite bool_decide_eq_false_2 by (intros ?; done).
    by rewrite bool_decide_eq_false_2 by done.
Qed.

Lemma putBooking_guards_witness :
  bookingService.putBooking 9 10 99 3 db_booked = (Throw notFoundError, db_booked)
  ∧ bookingService.putBooking 9 11 1 77 db_booked = (Throw cannotBookingError, db_booked)
  ∧ bookingService.putBooking 9 10 1 1 db_booked = (Throw cannotBookingError, db_booked)
  ∧ bookingService.putBooking 9 10 1 77 db_booked = (Throw notFoundError, db_booked).
Proof.
  split_and!.
  - apply (proj1 (putBooking_guards 9 db_booked 10 99 3)). reflexivity.
  - apply (proj1 (proj2 (putBooking_guards 9 db_booked 11 1 77)) (Booking.mk 1 10 1 5 5)).
    + reflexivity.
    + left. discriminate.
  - apply (proj1 (proj2 (putBooking_guards 9 db_booked 10 1 1)) (Booking.mk 1 10 1 5 5)).
    + reflexivity.
    + right. reflexivity.
  - apply (proj2 (proj2 (putBooking_guards 9 db_booked 10 1 77)) (Booking.mk 1 10 1 5 5)).
    + reflexivity.
    + reflexivity.
    + discriminate.
    + reflexivity.
Defined.

(** ** A second booking for the same user *)

(** C5, as stated, fails: a user who has a booking and asks for a room id
    that no room carries gets [notFoundError], since the room is checked
    first. *)
Lemma second_booking_not_always_conflict :
  ¬ (∀ now db userId roomId b,
       booking_of_user db userId = Some b →
       outcome (bookingService.postBooking now userId roomId) db
       = Throw cannotBookingError).
Proof.
  intros H.
  specialize (H 9 db_booked 10 77 (Booking.mk 1 10 1 5 5) eq_refl).
  vm_compute in H. discriminate.
Qed.

(** C5, amended.  For a user who already has a booking, [postBooking]
    always fails and writes nothing: with [cannotBookingError] for every
    room id that exists, whether that room is full or not and whatever the
    ticket of the user, and with [notFoundError] for a room id that does not
    exist. *)
Theorem postBooking_second_refused now db userId roomId b :
  booking_of_user db userId = Some b →
  (is_Some (room_of db roomId) →
   bookingService.postBooking now userId roomId db = (Throw cannotBookingError, db))
  ∧ (room_of db roomId = None →
     bookingService.postBooking now userId roomId db = (Throw notFoundError, db)).
Proof.
  intros Hb. rewrite postBooking_run, verifyRoom_run, validTicket_run, Hb. split.
  - intros [r ->].
    destruct (_ >=? _); [done|].
    destruct (enrollment_of db userId) as [e|]; [|done].
    destruct (ticketRepository.ticket_with_type db (Enrollment.id e)) as [t|]; [|done].
    by destruct (ticket_refused t).
  - by intros ->.
Qed.

Lemma postBooking_second_refused_witness :
  bookingService.postBooking 9 10 3 db_booked = (Throw cannotBookingError, db_booked)
  ∧ bookingService.postBooking 9 10 77 db_booked = (Throw notFoundError, db_booked).
Proof.
  split.
  - apply (proj1 (postBooking_second_refused 9 db_booked 10 3 (Booking.mk 1 10 1 5 5) eq_refl)).
    by eexists.
  - apply (proj2 (postBooking_second_refused 9 db_booked 10 77 (Booking.mk 1 10 1 5 5) eq_refl)).
    reflexivity.
Defined.

(** ** Failures write nothing *)

(** C6.  When [postBooking] or [putBooking] throws, the error is
    [notFoundError] or [cannotBookingError] and the database is the one the
    call started from, in every table.  When they return, the database is
    the one left by the single write of the repository, [create] or
    [update], on the database the call started from. *)
Theorem failure_writes_nothing now db userId bookingId roomId :
  (∀ e db', bookingService.postBooking now userId roomId db = (Throw e, db') →
            db' = db ∧ (e = notFoundError ∨ e = cannotBookingError))
  ∧ (∀ e db', bookingService.putBooking now userId bookingId roomId db = (Throw e, db') →
              db' = db ∧ (e = notFoundError ∨ e = cannotBookingError))
  ∧ (∀ b db', bookingService.postBooking now userId roomId db = (Ok b, db') →
              (Ok b, db') = bookingRepository.postBooking now userId roomId db)
  ∧ (∀ b db', bookingService.putBooking now userId bookingId roomId db = (Ok b, db') →
              (Ok b, db') = bookingRepository.updateBooking now bookingId roomId db).
Proof.
  split_and!.
  - intros e db' H.
    destruct (postBooking_cases now userId roomId db) as [(e' & He & Hk)|(_ & _ & _ & Hw)].
    + rewrite He in H. injection H as -> ->. done.
    + rewrite Hw in H. discriminate.
  - intros e db' H.
    destruct (putBooking_cases now userId bookingId roomId db)
      as [(e' & He & Hk)|(i & b & _ & _ & _ & _ & Hw)].
    + rewrite He in H. injection H as -> ->. done.
    + rewrite Hw in H. discriminate.
  - intros b db' H.
    destruct (postBooking_cases now userId roomId db) as [(e' & He & Hk)|(_ & _ & _ & Hw)].
    + rewrite He in H. discriminate.
    + congruence.
  - intros b db' H.
    destruct (putBooking_cases now userId bookingId roomId db)
      as [(e' & He & Hk)|(i & b0 & Hf & _ & _ & _ & Hw)].
    + rewrite He in H. discriminate.
    + rewrite updateBooking_run, Hf. congruence.
Qed.

Lemma failure_writes_nothing_witness :
  (after (bookingService.postBooking 9 10 3) db_booked = db_booked
   ∧ (cannotBookingError = notFoundError ∨ cannotBookingError = cannotBookingError))
  ∧ (after (bookingService.putBooking 9 11 1 3) db_booked = db_booked
     ∧ (cannotBookingError = notFoundError ∨ cannotBookingError = cannotBookingError)).
Proof.
  split.
  - apply (proj1 (failure_writes_nothing 9 db_booked 10 1 3) cannotBookingError). reflexivity.
  - apply (proj1 (proj2 (failure_writes_nothing 9 db_booked 11 1 3)) cannotBookingError).
    reflexivity.
Defined.

(** ** At most one booking per user *)

Lemma first_where_None_notin {A B} `{EqDecision B} (f : A → B) (y : B) (l : list A) :
  prisma.first_where (λ x, f x = y) l = None → y ∉ f <$> l.
Proof.
  unfold prisma.first_where. intros Hn Hin.
  destruct (list_find (λ x, f x = y) l) as [[i x]|] eqn:E; [done|].
  apply list_find_None in E.
  apply list_elem_of_fmap in Hin as (x & -> & Hx).
  by eapply Forall_forall in E.
Qed.

Lemma moved_same_user now roomId (l : list Booking.t) i b :
  l !! i = Some b →
  Booking.userId <$> <[i := moved now roomId b]> l = Booking.userId <$> l.
Proof.
  intros Hi. rewrite list_fmap_insert. apply list_insert_id.
  by rewrite list_lookup_fmap, Hi.
Qed.

Lemma moved_same_id now roomId (l : list Booking.t) i b :
  l !! i = Some b →
  Booking.id <$> <[i := moved now roomId b]> l = Booking.id <$> l.
Proof.
  intros Hi. rewrite list_fmap_insert. apply list_insert_id.
  by rewrite list_lookup_fmap, Hi.
Qed.

Lemma getBooking_reads userId db :
  after (bookingService.getBooking userId) db = db.
Proof.
  unfold after. rewrite getBooking_run. by destruct (booking_of_user db userId).
Qed.

Lemma postBooking_adds_for_new_user now userId roomId db :
  after (bookingService.postBooking now userId roomId) db = db
  ∨ (booking_of_user db userId = None
     ∧ ∃ b, Booking.userId b = userId
          ∧ booking (after (bookingService.postBooking now userId roomId) db)
            = booking db ++ [b]).
Proof.
  unfold after.
  destruct (postBooking_cases now userId roomId db) as [(e & -> & _)|(Hn & _ & _ & ->)].
  - by left.
  - right. split; [done|]. by eexists (Booking.mk _ _ _ _ _).
Qed.

Lemma putBooking_keeps_users now userId bookingId roomId db :
  Booking.userId <$> booking (after (bookingService.putBooking now userId bookingId roomId) db)
  = Booking.userId <$> booking db
  ∧ Booking.id <$> booking (after (bookingService.putBooking now userId bookingId roomId) db)
    = Booking.id <$> booking db.
Proof.
  unfold after.
  destruct (putBooking_cases now userId bookingId roomId db)
    as [(e & -> & _)|(i & b & Hf & _ & _ & _ & ->)]; [done|].
  apply list_find_Some in Hf as (Hi & _ & _). cbn [snd booking with_booking].
  by rewrite moved_same_user, moved_same_id.
Qed.

Lemma serve_keeps_invariant rq db :
  one_booking_per_user db → one_booking_per_user (serve rq db).
Proof.
  unfold one_booking_per_user. intros Hinv.
  destruct rq as [userId | now userId roomId | now userId bookingId roomId]; cbn [serve].
  - by rewrite getBooking_reads.
  - destruct (postBooking_adds_for_new_user now userId roomId db)
      as [-> | (Hn & b & Hb & ->)]; [done|].
    rewrite fmap_app. apply NoDup_app. split_and!; [done| |apply NoDup_singleton].
    intros u Hu [->|[]%elem_of_nil]%elem_of_cons.
    apply (first_where_None_notin Booking.userId userId (booking db)); [done|].
    by rewrite <- Hb.
  - by rewrite (proj1 (putBooking_keeps_users now userId bookingId roomId db)).
Qed.

(** C7.  [getBooking] leaves the database as it is; [postBooking] either
    leaves it as it is or appends one booking for a user who had none;
    [putBooking] leaves the user and the id of every booking row as they
    were.  Hence a database in which every user has at most one booking
    still has this property after any sequence of requests served one after
    the other. *)
Theorem one_booking_per_user_preserved db :
  (∀ userId, after (bookingService.getBooking userId) db = db)
  ∧ (∀ now userId roomId,
       after (bookingService.postBooking now userId roomId) db = db
       ∨ (booking_of_user db userId = None
          ∧ ∃ b, Booking.userId b = userId
               ∧ booking (after (bookingService.postBooking now userId roomId) db)
                 = booking db ++ [b]))
  ∧ (∀ now userId bookingId roomId,
       Booking.userId <$> booking (after (bookingService.putBooking now userId bookingId roomId) db)
       = Booking.userId <$> booking db)
  ∧ (one_booking_per_user db →
     ∀ rqs, one_booking_per_user (serve_all rqs db)).
Proof.
  split_and!.
  - intros. apply getBooking_reads.
  - intros. apply postBooking_adds_for_new_user.
  - intros. apply putBooking_keeps_users.
  - intros Hinv rqs. revert db Hinv. unfold serve_all.
    induction rqs as [|rq rqs IH]; intros db Hinv; [done|].
    cbn [foldl]. apply IH. by apply serve_keeps_invariant.
Qed.

Lemma one_booking_per_user_preserved_witness :
  one_booking_per_user
    (serve_all [PostBooking 9 10 2; PostBooking 10 10 3; PutBooking 11 10 1 3;
                GetBooking 10] db_fresh).
Proof.
  apply (proj2 (proj2 (proj2 (one_booking_per_user_preserved db_fresh)))).
  unfold one_booking_per_user. simpl. apply NoDup_nil_2.
Defined.

(** ** What a successful update changes *)

Lemma filter_insert_leaves {A} (P : A → Prop) `{∀ x, Decision (P x)}
    (l : list A) i x y :
  l !! i = Some x → P x → ¬ P y →
  S (length (filter P (<[i := y]> l))) = length (filter P l).
Proof.
  intros Hi Hx Hy.
  rewrite insert_take_drop by eauto using lookup_lt_Some.
  rewrite <- (take_drop_middle l i x Hi) at 3.
  rewrite !filter_app, !length_app, !filter_cons.
  rewrite (decide_True _ _ Hx), (decide_False _ _ Hy). cbn [length]. lia.
Qed.

Lemma first_where_insert_unique {A B} `{EqDecision B} (f : A → B)
    (l : list A) i x y :
  NoDup (f <$> l) → l !! i = Some x → f y = f x →
  prisma.first_where (λ z, f z = f x) (<[i := y]> l) = Some y.
Proof.
  intros Hnd Hi Hy. unfold prisma.first_where.
  assert (list_find (λ z, f z = f x) (<[i := y]> l) = Some (i, y)) as ->; [|done].
  apply list_find_Some. split_and!.
  - apply list_lookup_insert_eq. eauto using lookup_lt_Some.
  - done.
  - intros j z Hj Hlt Hz.
    rewrite list_lookup_insert_ne in Hj by lia.
    assert (j = i); [|lia].
    apply (NoDup_lookup (f <$> l) j i (f x)); [done|..].
    + by rewrite list_lookup_fmap, Hj; cbn; rewrite Hz.
    + by rewrite list_lookup_fmap, Hi.
Qed.

(** C8.  When [putBooking] returns, exactly one row of the booking table
    was rewritten, the one with the id: it keeps its id, its user and its
    creation time, takes the new room and the time of the write as its
    update time, and is the booking returned.  Every other booking row and
    all rooms, enrollments, tickets and ticket types are as before.  So, if
    every user had at most one booking, [getBooking] now returns this
    booking with the new room attached, and if the old room had this booking
    as its only occupant, its occupancy is now 0. *)
Theorem putBooking_moves_one_row now db userId bookingId roomId b' db' :
  bookingService.putBooking now userId bookingId roomId db = (Ok b', db') →
  ∃ i b r,
    booking db !! i = Some b
    ∧ Booking.id b = bookingId
    ∧ Booking.userId b = userId
    ∧ (Booking.id b' = Booking.id b
       ∧ Booking.userId b' = Booking.userId b
       ∧ Booking.createdAt b' = Booking.createdAt b
       ∧ Booking.roomId b' = roomId
       ∧ Booking.updatedAt b' = now)
    ∧ booking db' = <[i := b']> (booking db)
    ∧ (∀ j, j ≠ i → booking db' !! j = booking db !! j)
    ∧ length (booking db') = length (booking db)
    ∧ room db' = room db
    ∧ enrollment db' = enrollment db
    ∧ ticket db' = ticket db
    ∧ ticketType db' = ticketType db
    ∧ room_of db' roomId = Some r
    ∧ (one_booking_per_user db →
       bookingService.getBooking userId db' = (Ok (b', Some r), db'))
    ∧ (occupancy db (Booking.roomId b) = 1 →
       occupancy db' (Booking.roomId b) = 0).
Proof.
  intros Hrun.
  destruct (putBooking_cases now userId bookingId roomId db)
    as [(e & He & _)|(i & b & Hf & Hu & Hne & (r & Hr & _) & Hw)]; [congruence|].
  rewrite Hw in Hrun. injection Hrun as <- <-.
  apply list_find_Some in Hf as (Hi & Hid & _).
  exists i, b, r. cbn [booking room enrollment ticket ticketType with_booking].
  split_and!; try done.
  - intros j Hj. by apply list_lookup_insert_ne.
  - apply length_insert.
  - intros Hinv. rewrite getBooking_run.
    unfold booking_of_user. cbn [booking with_booking]. rewrite <- Hu.
    rewrite (first_where_insert_unique Booking.userId (booking db) i b
               (moved now roomId b)) by done.
    cbn [moved Booking.roomId].
    by replace (room_of _ roomId) with (Some r).
  - unfold occupancy. cbn [booking with_booking]. intros Hone.
    pose proof (filter_insert_leaves (λ x, Booking.roomId x = Booking.roomId b)
                  (booking db) i b (moved now roomId b) Hi eq_refl) as Hlen.
    cbn [moved Booking.roomId] in Hlen. specialize (Hlen (λ H, Hne (eq_sym H))).
    lia.
Qed.

Lemma putBooking_moves_one_row_witness :
  ∃ i b r,
    booking db_booked !! i = Some b
    ∧ Booking.id b = 1
    ∧ Booking.userId b = 10
    ∧ (Booking.id (Booking.mk 1 10 3 5 9) = Booking.id b
       ∧ Booking.userId (Booking.mk 1 10 3 5 9) = Booking.userId b
       ∧ Booking.createdAt (Booking.mk 1 10 3 5 9) = Booking.createdAt b
       ∧ Booking.roomId (Booking.mk 1 10 3 5 9) = 3
       ∧ Booking.updatedAt (Booking.mk 1 10 3 5 9) = 9)
    ∧ booking (after (bookingService.putBooking 9 10 1 3) db_booked)
      = <[i := Booking.mk 1 10 3 5 9]> (booking db_booked)
    ∧ (∀ j, j ≠ i → booking (after (bookingService.putBooking 9 10 1 3) db_booked) !! j
                    = booking db_booked !! j)
    ∧ length (booking (after (bookingService.putBooking 9 10 1 3) db_booked))
      = length (booking db_booked)
    ∧ room (after (bookingService.putBooking 9 10 1 3) db_booked) = room db_booked
    ∧ enrollment (after (bookingService.putBooking 9 10 1 3) db_booked) = enrollment db_booked
    ∧ ticket (after (bookingService.putBooking 9 10 1 3) db_booked) = ticket db_booked
    ∧ ticketType (after (bookingService.putBooking 9 10 1 3) db_booked) = ticketType db_booked
    ∧ room_of (after (bookingService.putBooking 9 10 1 3) db_booked) 3 = Some r
    ∧ (one_booking_per_user db_booked →
       bookingService.getBooking 10 (after (bookingService.putBooking 9 10 1 3) db_booked)
       = (Ok (Booking.mk 1 10 3 5 9, Some r),
          after (bookingService.putBooking 9 10 1 3) db_booked))
    ∧ (occupancy db_booked (Booking.roomId b) = 1 →
       occupancy (after (bookingService.putBooking 9 10 1 3) db_booked) (Booking.roomId b) = 0).
Proof.
  apply (putBooking_moves_one_row 9 db_booked 10 1 3). reflexivity.
Defined.

(** ** An update does not look at enrollments or tickets *)

(** C9.  On two databases with the same bookings and rooms, whatever their
    enrollments, tickets and ticket types, [putBooking] with the same
    arguments ends the same way, with the same booking returned or the same
    error thrown, and leaves the same bookings and rooms; the enrollments,
    tickets and ticket types of each database stay as they were. *)
Theorem putBooking_ignores_tickets now userId bookingId roomId db1 db2 :
  same_bookings_and_rooms db1 db2 →
  outcome (bookingService.putBooking now userId bookingId roomId) db1
  = outcome (bookingService.putBooking now userId bookingId roomId) db2
  ∧ same_bookings_and_rooms
      (after (bookingService.putBooking now userId bookingId roomId) db1)
      (after (bookingService.putBooking now userId bookingId roomId) db2)
  ∧ same_tickets db1 (after (bookingService.putBooking now userId bookingId roomId) db1)
  ∧ same_tickets db2 (after (bookingService.putBooking now userId bookingId roomId) db2).
Proof.
  assert (∀ db, same_tickets db
            (after (bookingService.putBooking now userId bookingId roomId) db)) as Hkeep.
  { intros db. unfold after.
    destruct (putBooking_cases now userId bookingId roomId db)
      as [(e & -> & _)|(i & b & _ & _ & _ & _ & ->)]; done. }
  intros (Hb & Hr & Hs).
  split; [|split; [|split; apply Hkeep]];
    unfold outcome, after, same_bookings_and_rooms.
  - rewrite !putBooking_run, !verifyRoom_run, !updateBooking_run.
    unfold booking_by_id, room_of, occupancy. rewrite Hb, Hr.
    repeat case_match; simplify_eq/=; done.
  - rewrite !putBooking_run, !verifyRoom_run, !updateBooking_run.
    unfold booking_by_id, room_of, occupancy. rewrite Hb, Hr, Hs.
    repeat case_match; simplify_eq/=; done.
Qed.

Lemma putBooking_ignores_tickets_witness :
  outcome (bookingService.putBooking 9 10 1 3) db_booked
  = outcome (bookingService.putBooking 9 10 1 3) db_booked_no_ticket
  ∧ same_bookings_and_rooms
      (after (bookingService.putBooking 9 10 1 3) db_booked)
      (after (bookingService.putBooking 9 10 1 3) db_booked_no_ticket).
Proof.
  destruct (putBooking_ignores_tickets 9 10 1 3 db_booked db_booked_no_ticket)
    as (Ho & Ha & _).
  - repeat split.
  - exact (conj Ho Ha).
Defined.

(** ** An update may cross hotels *)

(** C10.  The owner of a booking may move it to any existing room with
    spare capacity other than the current one: nothing is asked of the hotel
    of the target room.  The update returns the booking with the new room,
    and the booking is then found under its id with that room. *)
Theorem putBooking_any_free_room now db bookingId roomId b r :
  booking_by_id db bookingId = Some b →
  room_of db roomId = Some r →
  occupancy db roomId < Room.capacity r →
  roomId ≠ Booking.roomId b →
  ∃ db',
    bookingService.putBooking now (Booking.userId b) bookingId roomId db
    = (Ok (moved now roomId b), db')
    ∧ Booking.roomId (moved now roomId b) = Room.id r
    ∧ booking_by_id db' bookingId = Some (moved now roomId b).
Proof.
  intros Hb Hr Hocc Hne.
  rewrite putBooking_run, Hb, verifyRoom_run, Hr, updateBooking_run.
  rewrite bool_decide_eq_false_2 by (intros ?; done).
  rewrite bool_decide_eq_false_2 by done. cbn [orb].
  destruct (Z.geb_spec (occupancy db roomId) (Room.capacity r)) as [|_]; [lia|].
  apply booking_by_id_find in Hb as [i Hf]. rewrite Hf.
  eexists. split_and!; [reflexivity| |].
  - cbn [moved Booking.roomId]. unfold room_of, prisma.first_where in Hr.
    destruct (list_find _ (room db)) as [[j r']|] eqn:Ej; [|done].
    injection Hr as ->. by apply list_find_Some in Ej as (_ & -> & _).
  - apply booking_by_id_find. exists i. cbn [booking with_booking].
    apply list_find_Some in Hf as (Hi & Hid & Hleast).
    apply list_find_Some. split_and!.
    + apply list_lookup_insert_eq. eauto using lookup_lt_Some.
    + done.
    + intros j x Hj Hlt. rewrite list_lookup_insert_ne in Hj by lia. eauto.
Qed.

Lemma putBooking_any_free_room_witness :
  (∃ cur r, room_of db_booked 1 = Some cur ∧ room_of db_booked 3 = Some r
            ∧ Room.hotelId cur ≠ Room.hotelId r)
  ∧ ∃ db',
      bookingService.putBooking 9 10 1 3 db_booked = (Ok (Booking.mk 1 10 3 5 9), db')
      ∧ Booking.roomId (Booking.mk 1 10 3 5 9) = 3
      ∧ booking_by_id db' 1 = Some (Booking.mk 1 10 3 5 9).
Proof.
  split.
  - eexists _, _. split_and!; [reflexivity | reflexivity | discriminate].
  - apply (putBooking_any_free_room 9 db_booked 1 3 (Booking.mk 1 10 1 5 5)
             (Room.mk 3 "201" 2 2 0 0)).
    + reflexivity.
    + reflexivity.
    + reflexivity.
    + discriminate.
Defined.

(** * Further properties of the service *)

(** ** Lookups in a table *)

Lemma first_where_Some_elem {A} (P : A → Prop) `{∀ x, Decision (P x)} (l : list A) x :
  prisma.first_where P l = Some x → x ∈ l ∧ P x.
Proof.
  unfold prisma.first_where.
  destruct (list_find P l) as [[i y]|] eqn:E; [|done].
  intros [= ->]. apply list_find_Some in E as (Hi & HP & _).
  split; [|done]. by eapply list_elem_of_lookup_2.
Qed.

Lemma first_where_None_iff {A} (P : A → Prop) `{∀ x, Decision (P x)} (l : list A) :
  prisma.first_where P l = None ↔ ∀ x, x ∈ l → ¬ P x.
Proof.
  unfold prisma.first_where.
  destruct (list_find P l) as [[i y]|] eqn:E; cbn.
  - split; [done|]. intros Hall.
    apply list_find_Some in E as (Hi & HP & _).
    destruct (Hall y); [by eapply list_elem_of_lookup_2|done].
  - split; [|done]. intros _. apply list_find_None in E.
    by apply Forall_forall.
Qed.

Lemma first_where_snoc_other {A} (P : A → Prop) `{∀ x, Decision (P x)} (l : list A) y :
  ¬ P y → prisma.first_where P (l ++ [y]) = prisma.first_where P l.
Proof.
  intros Hy. destruct (prisma.first_where P l) as [x|] eqn:E.
  - unfold prisma.first_where in *.
    destruct (list_find P l) as [[i z]|] eqn:Ef; [|done].
    by rewrite (list_find_app_l _ _ _ _ _ Ef).
  - rewrite first_where_app_None by done.
    unfold prisma.first_where. cbn. by rewrite decide_False.
Qed.

Lemma first_where_insert_other {A} (P : A → Prop) `{∀ x, Decision (P x)}
    (l : list A) i x y :
  l !! i = Some x → ¬ P x → ¬ P y →
  prisma.first_where P (<[i := y]> l) = prisma.first_where P l.
Proof.
  unfold prisma.first_where. intros Hi Hx Hy. revert i Hi.
  induction l as [|z l IH]; intros [|i] Hi; simplify_eq/=.
  - by rewrite !decide_False.
  - destruct (decide (P z)); [done|].
    specialize (IH i Hi).
    destruct (list_find P (<[i:=y]> l)) as [[j1 z1]|],
             (list_find P l) as [[j2 z2]|]; simplify_eq/=; done.
Qed.

(** ** Counting the bookings of a room *)

Lemma occupancy_created db rows seq b roomId :
  rows = booking db ++ [b] →
  occupancy (with_booking rows seq db) roomId
  = occupancy db roomId + (if decide (Booking.roomId b = roomId) then 1 else 0).
Proof.
  intros ->. unfold occupancy. cbn [booking with_booking].
  rewrite filter_app, length_app, filter_cons, filter_nil.
  destruct (decide (Booking.roomId b = roomId)); cbn [length]; lia.
Qed.

Lemma occupancy_moved db i b b' seq roomId :
  booking db !! i = Some b →
  occupancy (with_booking (<[i := b']> (booking db)) seq db) roomId
  = occupancy db roomId
    - (if decide (Booking.roomId b = roomId) then 1 else 0)
    + (if decide (Booking.roomId b' = roomId) then 1 else 0).
Proof.
  intros Hi. unfold occupancy. cbn [booking with_booking].
  rewrite insert_take_drop by eauto using lookup_lt_Some.
  rewrite <- (take_drop_middle (booking db) i b Hi) at 3.
  rewrite !filter_app, !length_app, !filter_cons.
  destruct (decide (Booking.roomId b = roomId)),
           (decide (Booking.roomId b' = roomId)); cbn [length]; lia.
Qed.

(** The row a successful update leaves behind is the one found under the
    id afterwards. *)
Lemma list_find_after_move now roomId bookingId (l : list Booking.t) i b :
  list_find (λ b, Booking.id b = bookingId) l = Some (i, b) →
  list_find (λ b, Booking.id b = bookingId) (<[i := moved now roomId b]> l)
  = Some (i, moved now roomId b).
Proof.
  intros (Hi & Hid & Hleast)%list_find_Some.
  apply list_find_Some. split_and!.
  - apply list_lookup_insert_eq. eauto using lookup_lt_Some.
  - done.
  - intros j x Hj Hlt. rewrite list_lookup_insert_ne in Hj by lia. eauto.
Qed.

(** ** Reading a booking *)

(** X1.  [getBooking] never writes.  It throws [notFoundError] exactly when
    no booking row carries the user id, and throws nothing else; what it
    returns is a row of the booking table that carries the user id, with
    the room that row references attached. *)
Theorem getBooking_found_iff userId db :
  after (bookingService.getBooking userId) db = db
  ∧ (outcome (bookingService.getBooking userId) db = Throw notFoundError
     ↔ ∀ b, b ∈ booking db → Booking.userId b ≠ userId)
  ∧ (∀ e, outcome (bookingService.getBooking userId) db = Throw e → e = notFoundError)
  ∧ (∀ b r, outcome (bookingService.getBooking userId) db = Ok (b, r) →
            b ∈ booking db ∧ Booking.userId b = userId
            ∧ r = room_of db (Booking.roomId b)).
Proof.
  split; [apply getBooking_reads|].
  unfold outcome. rewrite getBooking_run.
  destruct (booking_of_user db userId) as [b|] eqn:Eb; cbn [fst]; split_and!.
  - split; [done|]. intros Hall.
    apply first_where_Some_elem in Eb as [Hin Hu]. by destruct (Hall b).
  - done.
  - intros b' r [= <- <-]. by apply first_where_Some_elem in Eb as [Hin Hu].
  - split; [|done]. intros _.
    by apply (first_where_None_iff (λ b, Booking.userId b = userId)).
  - by intros e [= <-].
  - done.
Qed.

Lemma getBooking_found_iff_witness :
  outcome (bookingService.getBooking 11) db_booked = Throw notFoundError
  ∧ (Booking.mk 1 10 1 5 5 ∈ booking db_booked
     ∧ Booking.userId (Booking.mk 1 10 1 5 5) = 10
     ∧ Some (Room.mk 1 "101" 1 1 0 0) = room_of db_booked (Booking.roomId (Booking.mk 1 10 1 5 5))).
Proof.
  split.
  - apply (proj1 (proj2 (getBooking_found_iff 11 db_booked))).
    intros b [->|[]%elem_of_nil]%elem_of_cons. discriminate.
  - apply (proj2 (proj2 (proj2 (getBooking_found_iff 10 db_booked)))). reflexivity.
Defined.

(** X2.  A booking that [postBooking] returned is the one [getBooking]
    returns for the same user right afterwards, with the requested room
    attached. *)
Theorem postBooking_then_getBooking now userId roomId db b db' :
  bookingService.postBooking now userId roomId db = (Ok b, db') →
  ∃ r, bookingService.getBooking userId db' = (Ok (b, Some r), db')
       ∧ Room.id r = roomId
       ∧ Booking.roomId b = roomId.
Proof.
  intros Hrun.
  destruct (postBooking_cases now userId roomId db)
    as [(e & He & _)|(Hnone & (r & Hr & _) & _ & Hw)]; [congruence|].
  rewrite Hw in Hrun. injection Hrun as <- <-.
  exists r. rewrite getBooking_run. unfold booking_of_user in *.
  cbn [booking with_booking]. rewrite first_where_app_None by done.
  unfold prisma.first_where at 1. cbn. rewrite decide_True by done. cbn.
  pose proof Hr as [_ Hid]%first_where_Some_elem.
  unfold room_of, prisma.first_where in Hr. by rewrite Hr.
Qed.

Lemma postBooking_then_getBooking_witness :
  ∃ r, bookingService.getBooking 10 (after (bookingService.postBooking 9 10 2) db_fresh)
       = (Ok (Booking.mk 1 10 2 9 9, Some r),
          after (bookingService.postBooking 9 10 2) db_fresh)
       ∧ Room.id r = 2
       ∧ Booking.roomId (Booking.mk 1 10 2 9 9) = 2.
Proof.
  apply (postBooking_then_getBooking 9 10 2 db_fresh). reflexivity.
Defined.

(** ** The two checks on their own *)

(** X3.  [verifyRoom] never writes.  It throws [notFoundError] exactly when
    no room row carries the id.  The number it returns is the occupancy of
    the room, which is then at least 0 and below the capacity; a room whose
    capacity is 0 or less is refused with [cannotBookingError] even when
    nobody has booked it. *)
Theorem verifyRoom_outcomes roomId db :
  after (bookingService.verifyRoom roomId) db = db
  ∧ (outcome (bookingService.verifyRoom roomId) db = Throw notFoundError
     ↔ ∀ r, r ∈ room db → Room.id r ≠ roomId)
  ∧ (∀ n, outcome (bookingService.verifyRoom roomId) db = Ok n →
          ∃ r, r ∈ room db ∧ Room.id r = roomId
               ∧ n = occupancy db roomId ∧ 0 ≤ n < Room.capacity r)
  ∧ (∀ r, room_of db roomId = Some r → Room.capacity r ≤ 0 →
          outcome (bookingService.verifyRoom roomId) db = Throw cannotBookingError).
Proof.
  unfold outcome, after. rewrite verifyRoom_run.
  pose proof (occupancy_nonneg db roomId) as Hnn.
  destruct (room_of db roomId) as [r|] eqn:Er.
  - pose proof Er as [Hin Hid]%first_where_Some_elem.
    destruct (Z.geb_spec (occupancy db roomId) (Room.capacity r)); cbn [fst snd];
      split_and!; try done.
    + split; [done|]. intros Hall. by destruct (Hall r).
    + split; [done|]. intros Hall. by destruct (Hall r).
    + intros n [= <-]. exists r. split_and!; [done..|lia].
    + intros r' [= <-] Hcap. lia.
  - cbn [fst snd]. split_and!; try done.
    split; [|done]. intros _.
    by apply (first_where_None_iff (λ r, Room.id r = roomId)).
Qed.

Lemma verifyRoom_outcomes_witness :
  outcome (bookingService.verifyRoom 77) db_booked = Throw notFoundError
  ∧ ∃ r, r ∈ room db_booked ∧ Room.id r = 3
         ∧ 0 = occupancy db_booked 3 ∧ 0 ≤ 0 < Room.capacity r.
Proof.
  split.
  - apply (proj1 (proj2 (verifyRoom_outcomes 77 db_booked))).
    intros r Hr. unfold db_booked, hotel_rooms in Hr. cbn [room] in Hr.
    repeat (apply elem_of_cons in Hr as [->|Hr]; [discriminate|]).
    by apply elem_of_nil in Hr.
  - apply (proj1 (proj2 (proj2 (verifyRoom_outcomes 3 db_booked)))). reflexivity.
Defined.

(** X4.  [validateEnrollment] and [validTicket] never write, and the only
    error they throw is [cannotBookingError]: a user without enrollment is
    refused, not reported as not found. *)
Theorem validTicket_only_refuses userId db :
  after (bookingService.validateEnrollment userId) db = db
  ∧ after (bookingService.validTicket userId) db = db
  ∧ (∀ e, outcome (bookingService.validateEnrollment userId) db = Throw e →
          e = cannotBookingError)
  ∧ (∀ e, outcome (bookingService.validTicket userId) db = Throw e →
          e = cannotBookingError)
  ∧ (enrollment_of db userId = None →
     outcome (bookingService.validateEnrollment userId) db = Throw cannotBookingError
     ∧ outcome (bookingService.validTicket userId) db = Throw cannotBookingError).
Proof.
  assert (bookingService.validateEnrollment userId db =
          match enrollment_of db userId with
          | None => (Throw cannotBookingError, db)
          | Some e => (Ok e, db)
          end) as Hve.
  { unfold bookingService.validateEnrollment. rewrite bind_run.
    change (enrollmentRepository.findWithAddressByUserId userId db)
      with (Ok (enrollment_of db userId), db).
    by destruct (enrollment_of db userId). }
  unfold outcome, after. rewrite Hve, validTicket_run.
  destruct (enrollment_of db userId) as [e|]; cbn [fst snd].
  - destruct (ticketRepository.ticket_with_type db (Enrollment.id e)) as [t|];
      [destruct (ticket_refused t)|]; cbn [fst snd];
      split_and!; try done; by intros ? [= <-].
  - split_and!; try done; by intros ? [= <-].
Qed.

Lemma validTicket_only_refuses_witness :
  outcome (bookingService.validateEnrollment 10) db_booked_no_ticket
  = Throw cannotBookingError
  ∧ outcome (bookingService.validTicket 10) db_booked_no_ticket
    = Throw cannotBookingError.
Proof.
  apply (proj2 (proj2 (proj2 (proj2 (validTicket_only_refuses 10 db_booked_no_ticket))))).
  reflexivity.
Defined.

(** ** When a write goes through *)

(** X5.  [postBooking] returns a booking exactly when the room exists with
    occupancy below capacity, the ticket of the user is eligible and the
    user has no booking; it throws [notFoundError] exactly when the room
    does not exist, whatever else holds. *)
Theorem postBooking_succeeds_iff now userId roomId db :
  ((∃ b, outcome (bookingService.postBooking now userId roomId) db = Ok b)
   ↔ (∃ r, room_of db roomId = Some r ∧ occupancy db roomId < Room.capacity r)
     ∧ eligible db userId
     ∧ booking_of_user db userId = None)
  ∧ (outcome (bookingService.postBooking now userId roomId) db = Throw notFoundError
     ↔ room_of db roomId = None).
Proof.
  unfold outcome. split.
  - destruct (postBooking_cases now userId roomId db)
      as [(e & He & _)|(Hnone & Hroom & Hel & Hw)].
    + rewrite He. split; [by intros [b ?]|].
      intros ((r & Hr & Hocc) & [t Ht%eligible_with_run] & Hnone).
      rewrite postBooking_run, verifyRoom_run, Hr, Ht, Hnone in He.
      destruct (Z.geb_spec (occupancy db roomId) (Room.capacity r)); [lia|done].
    + rewrite Hw. split; [done|]. intros _. by eexists.
  - rewrite postBooking_run, verifyRoom_run, validTicket_run.
    destruct (room_of db roomId) as [r|]; [|done].
    split; [|done].
    destruct (_ >=? _); [done|].
    destruct (enrollment_of db userId) as [e|]; [|done].
    destruct (ticketRepository.ticket_with_type db (Enrollment.id e)) as [t|]; [|done].
    destruct (ticket_refused t); [done|].
    by destruct (booking_of_user db userId).
Qed.

Lemma postBooking_succeeds_iff_witness :
  (∃ b, outcome (bookingService.postBooking 9 10 2) db_fresh = Ok b)
  ∧ room_of db_booked 77 = None.
Proof.
  split.
  - apply (proj1 (postBooking_succeeds_iff 9 10 2 db_fresh)). split_and!.
    + exists (Room.mk 2 "102" 1 1 0 0). split; reflexivity.
    + exists (TicketWithType.mk (Ticket.mk 1000 7 100 PAID) (TicketType.mk 7 false true)),
        (Enrollment.mk 100 10).
      split_and!; [reflexivity | reflexivity | discriminate | reflexivity | reflexivity].
    + reflexivity.
  - apply (proj2 (postBooking_succeeds_iff 9 10 77 db_booked)). reflexivity.
Defined.

(** X6.  [putBooking] returns a booking exactly when a booking carries the
    id, the caller is its user, the target room differs from its room,
    exists and has occupancy below capacity.  It throws [notFoundError]
    exactly when no booking carries the id, or when the caller is the user
    of the booking, asks for another room and that room does not exist. *)
Theorem putBooking_succeeds_iff now userId bookingId roomId db :
  ((∃ b', outcome (bookingService.putBooking now userId bookingId roomId) db = Ok b')
   ↔ ∃ b r, booking_by_id db bookingId = Some b
            ∧ userId = Booking.userId b
            ∧ roomId ≠ Booking.roomId b
            ∧ room_of db roomId = Some r
            ∧ occupancy db roomId < Room.capacity r)
  ∧ (outcome (bookingService.putBooking now userId bookingId roomId) db
     = Throw notFoundError
     ↔ booking_by_id db bookingId = None
       ∨ ∃ b, booking_by_id db bookingId = Some b
              ∧ userId = Booking.userId b
              ∧ roomId ≠ Booking.roomId b
              ∧ room_of db roomId = None).
Proof.
  unfold outcome. rewrite putBooking_run, verifyRoom_run, updateBooking_run.
  destruct (booking_by_id db bookingId) as [b|] eqn:Eb; cycle 1.
  { split; split; try done; [by intros [? ?] | by intros (? & ? & ? & _) | by left]. }
  pose proof Eb as [i Hf]%booking_by_id_find. rewrite Hf.
  destruct (bool_decide_reflect (userId ≠ Booking.userId b)) as [Hu|Hu%dec_stable];
    cbn [orb].
  { split; split; try done.
    - by intros [? ?].
    - intros (b0 & r & [= <-] & ? & _). done.
    - intros [|(b0 & [= <-] & ? & _)]; done. }
  destruct (bool_decide_reflect (roomId = Booking.roomId b)) as [Hr|Hr].
  { split; split; try done.
    - by intros [? ?].
    - intros (b0 & r & [= <-] & _ & ? & _). done.
    - intros [|(b0 & [= <-] & _ & ? & _)]; done. }
  destruct (room_of db roomId) as [r|] eqn:Er; cycle 1.
  { split; split; try done.
    - by intros [? ?].
    - intros (b0 & r & _ & _ & _ & ? & _). done.
    - intros _. right. by exists b. }
  destruct (Z.geb_spec (occupancy db roomId) (Room.capacity r)).
  - split; split; try done.
    + by intros [? ?].
    + intros (b0 & r0 & _ & _ & _ & [= <-] & ?). lia.
    + intros [|(b0 & _ & _ & _ & ?)]; done.
  - split; split; try done.
    + intros _. by exists b, r.
    + intros _. by eexists.
    + intros [|(b0 & _ & _ & _ & ?)]; done.
Qed.

Lemma putBooking_succeeds_iff_witness :
  (∃ b', outcome (bookingService.putBooking 9 10 1 3) db_booked = Ok b')
  ∧ outcome (bookingService.putBooking 9 10 1 77) db_booked = Throw notFoundError.
Proof.
  split.
  - apply (proj1 (putBooking_succeeds_iff 9 10 1 3 db_booked)).
    exists (Booking.mk 1 10 1 5 5), (Room.mk 3 "201" 2 2 0 0).
    split_and!; [reflexivity | reflexivity | discriminate | reflexivity | reflexivity].
  - apply (proj2 (putBooking_succeeds_iff 9 10 1 77 db_booked)).
    right. exists (Booking.mk 1 10 1 5 5).
    split_and!; [reflexivity | reflexivity | discriminate | reflexivity].
Defined.

(** ** What a write that went through left behind *)

Lemma postBooking_ok_inv now userId roomId db b db' :
  bookingService.postBooking now userId roomId db = (Ok b, db') →
  booking_of_user db userId = None
  ∧ (∃ r, room_of db roomId = Some r ∧ occupancy db roomId < Room.capacity r)
  ∧ b = created (booking_id_seq db + 1) now userId roomId
  ∧ db' = with_booking (booking db ++ [b]) (booking_id_seq db + 1) db.
Proof.
  intros Hrun.
  destruct (postBooking_cases now userId roomId db)
    as [(e & He & _)|(Hnone & Hroom & _ & Hw)]; [congruence|].
  rewrite Hw in Hrun. injection Hrun as <- <-. done.
Qed.

Lemma putBooking_ok_inv now userId bookingId roomId db b' db' :
  bookingService.putBooking now userId bookingId roomId db = (Ok b', db') →
  ∃ i b,
    list_find (λ b, Booking.id b = bookingId) (booking db) = Some (i, b)
    ∧ booking db !! i = Some b
    ∧ Booking.userId b = userId
    ∧ Booking.roomId b ≠ roomId
    ∧ (∃ r, room_of db roomId = Some r ∧ occupancy db roomId < Room.capacity r)
    ∧ b' = moved now roomId b
    ∧ db' = with_booking (<[i := b']> (booking db)) (booking_id_seq db) db.
Proof.
  intros Hrun.
  destruct (putBooking_cases now userId bookingId roomId db)
    as [(e & He & _)|(i & b & Hf & Hu & Hne & Hroom & Hw)]; [congruence|].
  rewrite Hw in Hrun. injection Hrun as <- <-.
  exists i, b. split_and!; try done. by apply list_find_Some in Hf as (? & _).
Qed.

(** X7.  [postBooking] raises the occupancy of the requested room by one
    and leaves the occupancy of every other room as it was. *)
Theorem postBooking_occupancy now userId roomId db b db' :
  bookingService.postBooking now userId roomId db = (Ok b, db') →
  ∀ r, occupancy db' r = occupancy db r + (if decide (r = roomId) then 1 else 0).
Proof.
  intros (_ & _ & -> & ->)%postBooking_ok_inv r.
  rewrite (occupancy_created db _ _ _ r eq_refl). cbn [created Booking.roomId].
  destruct (decide (roomId = r)), (decide (r = roomId)); congruence.
Qed.

Lemma postBooking_occupancy_witness :
  occupancy (after (bookingService.postBooking 9 10 2) db_fresh) 2
  = occupancy db_fresh 2 + (if decide (2 = 2) then 1 else 0)
  ∧ occupancy (after (bookingService.postBooking 9 10 2) db_fresh) 3
    = occupancy db_fresh 3 + (if decide (3 = 2) then 1 else 0).
Proof.
  split;
    apply (postBooking_occupancy 9 10 2 db_fresh (Booking.mk 1 10 2 9 9)); reflexivity.
Defined.

(** X8.  [putBooking] raises the occupancy of the new room by one, lowers
    that of the room the booking was in by one, and leaves the occupancy of
    every other room as it was. *)
Theorem putBooking_occupancy now userId bookingId roomId db b' db' :
  bookingService.putBooking now userId bookingId roomId db = (Ok b', db') →
  ∃ b, booking_by_id db bookingId = Some b
       ∧ Booking.roomId b ≠ roomId
       ∧ ∀ r, occupancy db' r
              = occupancy db r
                - (if decide (r = Booking.roomId b) then 1 else 0)
                + (if decide (r = roomId) then 1 else 0).
Proof.
  intros (i & b & Hf & Hi & _ & Hne & _ & -> & ->)%putBooking_ok_inv.
  exists b. split_and!; [apply booking_by_id_find; eauto | done |].
  intros r. rewrite (occupancy_moved db i b _ _ r Hi). cbn [moved Booking.roomId].
  destruct (decide (Booking.roomId b = r)), (decide (r = Booking.roomId b));
    destruct (decide (roomId = r)), (decide (r = roomId)); congruence.
Qed.

Lemma putBooking_occupancy_witness :
  ∃ b, booking_by_id db_booked 1 = Some b
       ∧ Booking.roomId b ≠ 3
       ∧ ∀ r, occupancy (after (bookingService.putBooking 9 10 1 3) db_booked) r
              = occupancy db_booked r
                - (if decide (r = Booking.roomId b) then 1 else 0)
                + (if decide (r = 3) then 1 else 0).
Proof.
  apply (putBooking_occupancy 9 10 1 3 db_booked (Booking.mk 1 10 3 5 9)). reflexivity.
Defined.

(** ** No room is overbooked *)

Lemma serve_keeps_rooms rq db : room (serve rq db) = room db.
Proof.
  destruct rq as [userId | now userId roomId | now userId bookingId roomId];
    cbn [serve]; unfold after.
  - rewrite getBooking_run. by destruct (booking_of_user db userId).
  - by destruct (postBooking_cases now userId roomId db)
      as [(e & -> & _)|(_ & _ & _ & ->)].
  - by destruct (putBooking_cases now userId bookingId roomId db)
      as [(e & -> & _)|(i & b & _ & _ & _ & _ & ->)].
Qed.

Lemma serve_keeps_capacity rq db :
  no_overbooking db → no_overbooking (serve rq db).
Proof.
  intros Hinv r' rm. unfold room_of. rewrite serve_keeps_rooms.
  fold (room_of db r'). intros Hrm. specialize (Hinv r' rm Hrm).
  destruct rq as [userId | now userId roomId | now userId bookingId roomId];
    cbn [serve].
  - by rewrite getBooking_reads.
  - unfold after.
    destruct (bookingService.postBooking now userId roomId db) as [[b|e] db'] eqn:E;
      cbn [snd].
    + apply postBooking_ok_inv in E as (_ & (r & Hr & Hocc) & -> & ->).
      rewrite (occupancy_created db _ _ _ r' eq_refl). cbn [created Booking.roomId].
      destruct (decide (roomId = r')) as [<-|]; [|lia].
      rewrite Hr in Hrm. injection Hrm as <-. lia.
    + destruct (postBooking_cases now userId roomId db)
        as [(e' & He & _)|(_ & _ & _ & Hw)]; [|rewrite Hw in E; discriminate].
      rewrite He in E. by injection E as <- <-.
  - unfold after.
    destruct (bookingService.putBooking now userId bookingId roomId db)
      as [[b'|e] db'] eqn:E; cbn [snd].
    + apply putBooking_ok_inv
        in E as (i & b & _ & Hi & _ & Hne & (r & Hr & Hocc) & -> & ->).
      rewrite (occupancy_moved db i b _ _ r' Hi). cbn [moved Booking.roomId].
      destruct (decide (roomId = r')) as [<-|].
      * rewrite Hr in Hrm. injection Hrm as <-.
        destruct (decide (Booking.roomId b = roomId)); [done|lia].
      * destruct (decide (Booking.roomId b = r')); lia.
    + destruct (putBooking_cases now userId bookingId roomId db)
        as [(e' & He & _)|(i & b & _ & _ & _ & _ & Hw)]; [|rewrite Hw in E; discriminate].
      rewrite He in E. by injection E as <- <-.
Qed.

(** X9.  A database in which no room holds more bookings than its capacity
    is still such a database after any sequence of requests served one after
    the other; the rooms themselves are never changed. *)
Theorem no_overbooking_preserved db rqs :
  no_overbooking db →
  no_overbooking (serve_all rqs db) ∧ room (serve_all rqs db) = room db.
Proof.
  unfold serve_all. revert db.
  induction rqs as [|rq rqs IH]; intros db Hinv; [done|].
  cbn [foldl].
  destruct (IH (serve rq db) (serve_keeps_capacity rq db Hinv)) as [Hcap Hrooms].
  split; [done|]. by rewrite Hrooms, serve_keeps_rooms.
Qed.

Lemma no_overbooking_preserved_witness :
  no_overbooking
    (serve_all [PutBooking 9 10 1 2; PostBooking 10 10 3; PutBooking 11 10 1 3] db_booked)
  ∧ room (serve_all [PutBooking 9 10 1 2; PostBooking 10 10 3; PutBooking 11 10 1 3]
            db_booked)
    = room db_booked.
Proof.
  apply (no_overbooking_preserved db_booked).
  intros roomId r Hr. apply first_where_Some_elem in Hr as [Hin <-].
  unfold db_booked, hotel_rooms in Hin. cbn [room] in Hin.
  repeat (apply elem_of_cons in Hin as [->|Hin]; [vm_compute; discriminate|]).
  by apply elem_of_nil in Hin.
Defined.

(** ** One write after another *)

(** X10.  When a booking fills the last free place of a room, every further
    [postBooking] for that room, by whatever user, throws
    [cannotBookingError]; when a place is left, the room check still passes
    and reports the occupancy raised by one. *)
Theorem full_room_refuses_next now userId roomId db b db' r :
  bookingService.postBooking now userId roomId db = (Ok b, db') →
  room_of db roomId = Some r →
  (occupancy db roomId + 1 = Room.capacity r →
   ∀ now' userId', bookingService.postBooking now' userId' roomId db'
                   = (Throw cannotBookingError, db'))
  ∧ (occupancy db roomId + 1 < Room.capacity r →
     bookingService.verifyRoom roomId db' = (Ok (occupancy db roomId + 1), db')).
Proof.
  intros (_ & _ & -> & ->)%postBooking_ok_inv Hr.
  set (db' := with_booking _ _ db).
  assert (room_of db' roomId = Some r) as Hr' by done.
  assert (occupancy db' roomId = occupancy db roomId + 1) as Hocc.
  { unfold db'. rewrite (occupancy_created db _ _ _ roomId eq_refl).
    cbn [created Booking.roomId]. by rewrite decide_True. }
  split.
  - intros Hfull now' userId'. rewrite postBooking_run, verifyRoom_run, Hr', Hocc.
    by destruct (Z.geb_spec (occupancy db roomId + 1) (Room.capacity r)); [|lia].
  - intros Hfree. rewrite verifyRoom_run, Hr', Hocc.
    by destruct (Z.geb_spec (occupancy db roomId + 1) (Room.capacity r)); [lia|].
Qed.

Lemma full_room_refuses_next_witness :
  (∀ now' userId',
     bookingService.postBooking now' userId' 2
       (after (bookingService.postBooking 9 10 2) db_fresh)
     = (Throw cannotBookingError, after (bookingService.postBooking 9 10 2) db_fresh))
  ∧ bookingService.verifyRoom 3 (after (bookingService.postBooking 9 10 3) db_fresh)
    = (Ok (occupancy db_fresh 3 + 1), after (bookingService.postBooking 9 10 3) db_fresh).
Proof.
  split.
  - apply (proj1 (full_room_refuses_next 9 10 2 db_fresh (Booking.mk 1 10 2 9 9)
                    (after (bookingService.postBooking 9 10 2) db_fresh)
                    (Room.mk 2 "102" 1 1 0 0) eq_refl eq_refl)).
    reflexivity.
  - apply (proj2 (full_room_refuses_next 9 10 3 db_fresh (Booking.mk 1 10 3 9 9)
                    (after (bookingService.postBooking 9 10 3) db_fresh)
                    (Room.mk 3 "201" 2 2 0 0) eq_refl eq_refl)).
    reflexivity.
Defined.

(** X11.  A [putBooking] that went through cannot be repeated: the same
    request on the resulting database is refused with [cannotBookingError],
    because the booking is now in the requested room. *)
Theorem putBooking_repeat_refused now userId bookingId roomId db b' db' :
  bookingService.putBooking now userId bookingId roomId db = (Ok b', db') →
  ∀ now', bookingService.putBooking now' userId bookingId roomId db'
          = (Throw cannotBookingError, db').
Proof.
  intros (i & b & Hf & _ & _ & _ & _ & -> & ->)%putBooking_ok_inv now'.
  rewrite putBooking_run.
  assert (booking_by_id (with_booking (<[i := moved now roomId b]> (booking db))
                           (booking_id_seq db) db) bookingId
          = Some (moved now roomId b)) as ->.
  { apply booking_by_id_find. exists i. by apply list_find_after_move. }
  cbn [moved Booking.roomId Booking.userId].
  rewrite (bool_decide_eq_true_2 (roomId = roomId)) by done.
  by rewrite orb_true_r.
Qed.

Lemma putBooking_repeat_refused_witness :
  bookingService.putBooking 12 10 1 3
    (after (bookingService.putBooking 9 10 1 3) db_booked)
  = (Throw cannotBookingError, after (bookingService.putBooking 9 10 1 3) db_booked).
Proof.
  apply (putBooking_repeat_refused 9 10 1 3 db_booked (Booking.mk 1 10 3 5 9)).
  reflexivity.
Defined.

(** X12.  What [getBooking] answers to a user is not changed by a
    [postBooking] or a [putBooking] made in the name of another user,
    whether that request goes through or not. *)
Theorem writes_leave_other_users now userId userId' bookingId roomId db :
  userId' ≠ userId →
  outcome (bookingService.getBooking userId')
    (after (bookingService.postBooking now userId roomId) db)
  = outcome (bookingService.getBooking userId') db
  ∧ outcome (bookingService.getBooking userId')
      (after (bookingService.putBooking now userId bookingId roomId) db)
    = outcome (bookingService.getBooking userId') db.
Proof.
  intros Hne. unfold outcome, after. split.
  - destruct (postBooking_cases now userId roomId db)
      as [(e & -> & _)|(_ & _ & _ & ->)]; [done|].
    rewrite !getBooking_run. unfold booking_of_user, room_of.
    cbn [snd bookingRepository.postBooking booking room with_booking].
    rewrite first_where_snoc_other; [by destruct (prisma.first_where _ _)|].
    cbn [created Booking.userId]. congruence.
  - destruct (putBooking_cases now userId bookingId roomId db)
      as [(e & -> & _)|(i & b & Hf & Hu & _ & _ & ->)]; [done|].
    apply list_find_Some in Hf as (Hi & _ & _).
    rewrite !getBooking_run. unfold booking_of_user, room_of.
    cbn [snd booking room with_booking].
    rewrite (first_where_insert_other _ _ i b);
      [by destruct (prisma.first_where _ _) | done | |].
    + congruence.
    + cbn [moved Booking.userId]. congruence.
Qed.

Lemma writes_leave_other_users_witness :
  outcome (bookingService.getBooking 10)
    (after (bookingService.postBooking 9 11 3) db_booked)
  = outcome (bookingService.getBooking 10) db_booked
  ∧ outcome (bookingService.getBooking 10)
      (after (bookingService.putBooking 9 11 1 3) db_booked)
    = outcome (bookingService.getBooking 10) db_booked.
Proof.
  apply (writes_leave_other_users 9 11 10 1 3 db_booked). discriminate.
Defined.

(** X13.  After a booking was moved, its user can move it back, provided
    the room it came from was not overbooked: the second [putBooking] goes
    through, and afterwards every booking row is what it was before the two
    moves, update times aside, so that every room has its former
    occupancy. *)
Theorem putBooking_back_restores now now' userId bookingId roomId db b b1 db1 rx :
  booking_by_id db bookingId = Some b →
  bookingService.putBooking now userId bookingId roomId db = (Ok b1, db1) →
  room_of db (Booking.roomId b) = Some rx →
  occupancy db (Booking.roomId b) ≤ Room.capacity rx →
  ∃ b2 db2,
    bookingService.putBooking now' userId bookingId (Booking.roomId b) db1 = (Ok b2, db2)
    ∧ booking_core b2 = booking_core b
    ∧ booking_core <$> booking db2 = booking_core <$> booking db
    ∧ ∀ r, occupancy db2 r = occupancy db r.
Proof.
  intros Hb (i & b0 & Hf & Hi & Hu & Hne & _ & -> & ->)%putBooking_ok_inv Hrx Hcap.
  apply booking_by_id_find in Hb as [i' Hf']. rewrite Hf in Hf'. injection Hf' as <- <-.
  set (l := booking db) in *.
  set (db1 := with_booking (<[i := moved now roomId b0]> l) (booking_id_seq db) db).
  set (b2 := moved now' (Booking.roomId b0) (moved now roomId b0)).
  assert (list_find (λ b, Booking.id b = bookingId) (booking db1)
          = Some (i, moved now roomId b0)) as Hf1.
  { by apply list_find_after_move. }
  assert (booking_core b2 = booking_core b0) as Hcore by done.
  assert (∀ r, occupancy (with_booking (<[i := b2]> l) (booking_id_seq db) db) r
               = occupancy db r) as Hsame.
  { intros r. rewrite (occupancy_moved db i b0 _ _ r Hi).
    cbn [b2 moved Booking.roomId]. destruct (decide _); lia. }
  exists b2, (with_booking (<[i := b2]> l) (booking_id_seq db) db).
  split_and!; [|done| |done].
  - rewrite putBooking_run.
    assert (booking_by_id db1 bookingId = Some (moved now roomId b0)) as ->.
    { apply booking_by_id_find. by exists i. }
    cbn [moved Booking.userId Booking.roomId].
    rewrite bool_decide_eq_false_2 by (intros ?; done).
    rewrite bool_decide_eq_false_2 by done. cbn [orb].
    rewrite verifyRoom_run.
    change (room_of db1 (Booking.roomId b0)) with (room_of db (Booking.roomId b0)).
    rewrite Hrx.
    assert (occupancy db1 (Booking.roomId b0) = occupancy db (Booking.roomId b0) - 1)
      as ->.
    { unfold db1. rewrite (occupancy_moved db i b0 _ _ _ Hi).
      cbn [moved Booking.roomId].
      rewrite decide_True, decide_False by done. lia. }
    destruct (Z.geb_spec (occupancy db (Booking.roomId b0) - 1) (Room.capacity rx));
      [lia|].
    rewrite updateBooking_run, Hf1. subst db1 b2. unfold with_booking.
    cbn [booking room enrollment ticket ticketType booking_id_seq].
    by rewrite list_insert_insert_eq.
  - cbn [booking with_booking]. rewrite list_fmap_insert, Hcore.
    apply list_insert_id. by rewrite list_lookup_fmap, Hi.
Qed.

Lemma putBooking_back_restores_witness :
  ∃ b2 db2,
    bookingService.putBooking 12 10 1 1
      (after (bookingService.putBooking 9 10 1 3) db_booked) = (Ok b2, db2)
    ∧ booking_core b2 = booking_core (Booking.mk 1 10 1 5 5)
    ∧ booking_core <$> booking db2 = booking_core <$> booking db_booked
    ∧ ∀ r, occupancy db2 r = occupancy db_booked r.
Proof.
  apply (putBooking_back_restores 9 12 10 1 3 db_booked (Booking.mk 1 10 1 5 5)
           (Booking.mk 1 10 3 5 9) (after (bookingService.putBooking 9 10 1 3) db_booked)
           (Room.mk 1 "101" 1 1 0 0)).
  - reflexivity.
  - reflexivity.
  - reflexivity.
  - vm_compute. discriminate.
Defined.
